(** * Zodson: the Zod <-> BSON schema converters of src/types.ts

    Shallow embedding of the last TypeScript variant of the converters in
    [src/types.ts] ([zodToBsonSchema], [createMongoValidator],
    [mongoSchemaToZod], lines 749-1105), written as total functions into an
    error type standing for the JavaScript exceptions they throw. *)

From Stdlib Require Import String List ZArith Bool Lia.
Import ListNotations.
Open Scope string_scope.
Set Warnings "-register-all".

(** ** Errors

    A thrown JavaScript [Error] (or [TypeError]) with its message. *)

Inductive result (A : Type) : Type :=
| Ok (a : A)
| Err (message : string).
Arguments Ok {A} a.
Arguments Err {A} message.

Definition rbind {A B} (r : result A) (k : A -> result B) : result B :=
  match r with
  | Ok a => k a
  | Err e => Err e
  end.

Notation "x <- r ;; k" := (rbind r (fun x => k))
  (at level 61, r at next level, right associativity).

(** ** Zod schemas (the validation-schema tree)

    Only the structure the converters read is kept: the class of each node
    (what [instanceof] tests), the [_def.checks] lists of strings and numbers
    with their [kind], the element / shape / options / values of containers.
    A regular expression is kept as its [source] string. Number-valued
    arguments are kept as [Z]: the converters only copy or compare them. *)

Inductive string_check : Type :=
| SMin (value : Z)
| SMax (value : Z)
| SLength (value : Z)
| SRegex (source : string)
| SEmail
| SUuid
| SOtherCheck (kind : string).

Inductive number_check : Type :=
| NMin (value : Z)
| NMax (value : Z)
| NInt
| NMultipleOf (value : Z)
| NOtherCheck (kind : string).

(** [z.object(..).strip()] (the default), [.strict()], [.passthrough()]. *)
Inductive unknown_keys : Type := UKStrip | UKStrict | UKPassthrough.

(** The refinement / transform of a [ZodEffects] node built by
    [mongoSchemaToZod]. *)
Inductive effect : Type :=
| ERefineUniqueItems                           (* .refine(items => new Set(items).size === items.length) *)
| ESuperRefineProperties (minP maxP : option Z) (* .superRefine(validateProperties ...) *)
| ETransformBase64.                            (* .transform(val => Buffer.from(val, 'base64')) *)

Inductive zod : Type :=
| ZOptional (inner : zod)
| ZNullable (inner : zod)
| ZUndefined
| ZUnion (options : list zod)
| ZObject (shape : list (string * zod)) (unknownKeys : unknown_keys)
| ZRecord (valueType : zod)
| ZArray (element : zod) (minLength maxLength : option Z)
| ZString (checks : list string_check)
| ZNumber (checks : list number_check)
| ZBoolean
| ZDate
| ZEnum (values : list string)
| ZNativeEnum (values : list (string * string))
| ZAny
| ZEffects (schema : zod) (eff : effect)
| ZOtherType (constructorName : string).

(** The class name seen by [zodSchema.constructor.name]. *)
Definition constructor_name (z : zod) : string :=
  match z with
  | ZOptional _ => "ZodOptional"
  | ZNullable _ => "ZodNullable"
  | ZUndefined => "ZodUndefined"
  | ZUnion _ => "ZodUnion"
  | ZObject _ _ => "ZodObject"
  | ZRecord _ => "ZodRecord"
  | ZArray _ _ _ => "ZodArray"
  | ZString _ => "ZodString"
  | ZNumber _ => "ZodNumber"
  | ZBoolean => "ZodBoolean"
  | ZDate => "ZodDate"
  | ZEnum _ => "ZodEnum"
  | ZNativeEnum _ => "ZodNativeEnum"
  | ZAny => "ZodAny"
  | ZEffects _ _ => "ZodEffects"
  | ZOtherType n => n
  end.

(** ** BSON schema descriptors ([TMongoSchema])

    A descriptor is a plain JavaScript object whose keys are all optional
    ([{}] is a valid descriptor, and the [oneOf] form is the same kind of
    object with a [oneOf] key). [None] is an absent key. The keys
    [description], [title], [exclusiveMinimum], [exclusiveMaximum],
    [patternProperties], [dependencies] and [binaryType] are neither written
    nor read by the converters and are left out. *)

Inductive mongo : Type := MkMongo {
  oneOf : option (list mongo);
  bsonType : option string;
  enum : option (list string);
  properties : option (list (string * mongo));
  required : option (list string);
  minProperties : option Z;
  maxProperties : option Z;
  additionalProperties : option (bool + mongo);
  items : option (mongo + list mongo);
  minItems : option Z;
  maxItems : option Z;
  uniqueItems : option bool;
  minLength : option Z;
  maxLength : option Z;
  pattern : option string;
  minimum : option Z;
  maximum : option Z;
  multipleOf : option Z
}.

(** [{}] *)
Definition mongo_empty : mongo :=
  MkMongo None None None None None None None None None None None None
          None None None None None None.

(** [{ bsonType: bt }] *)
Definition mk_bson (bt : string) : mongo :=
  MkMongo None (Some bt) None None None None None None None None None None
          None None None None None None.

(** [{ oneOf: l }] *)
Definition mk_oneOf (l : list mongo) : mongo :=
  MkMongo (Some l) None None None None None None None None None None None
          None None None None None None.

(** Property assignments [m.key = v] and spreads [{...m, key: v}]. *)
Definition set_enum (v : list string) (m : mongo) : mongo :=
  MkMongo (oneOf m) (bsonType m) (Some v) (properties m) (required m)
    (minProperties m) (maxProperties m) (additionalProperties m) (items m)
    (minItems m) (maxItems m) (uniqueItems m) (minLength m) (maxLength m)
    (pattern m) (minimum m) (maximum m) (multipleOf m).
Definition set_properties (v : list (string * mongo)) (m : mongo) : mongo :=
  MkMongo (oneOf m) (bsonType m) (enum m) (Some v) (required m)
    (minProperties m) (maxProperties m) (additionalProperties m) (items m)
    (minItems m) (maxItems m) (uniqueItems m) (minLength m) (maxLength m)
    (pattern m) (minimum m) (maximum m) (multipleOf m).
Definition set_required (v : list string) (m : mongo) : mongo :=
  MkMongo (oneOf m) (bsonType m) (enum m) (properties m) (Some v)
    (minProperties m) (maxProperties m) (additionalProperties m) (items m)
    (minItems m) (maxItems m) (uniqueItems m) (minLength m) (maxLength m)
    (pattern m) (minimum m) (maximum m) (multipleOf m).
Definition set_additionalProperties (v : bool + mongo) (m : mongo) : mongo :=
  MkMongo (oneOf m) (bsonType m) (enum m) (properties m) (required m)
    (minProperties m) (maxProperties m) (Some v) (items m)
    (minItems m) (maxItems m) (uniqueItems m) (minLength m) (maxLength m)
    (pattern m) (minimum m) (maximum m) (multipleOf m).
Definition set_items (v : mongo + list mongo) (m : mongo) : mongo :=
  MkMongo (oneOf m) (bsonType m) (enum m) (properties m) (required m)
    (minProperties m) (maxProperties m) (additionalProperties m) (Some v)
    (minItems m) (maxItems m) (uniqueItems m) (minLength m) (maxLength m)
    (pattern m) (minimum m) (maximum m) (multipleOf m).
Definition set_minItems (v : Z) (m : mongo) : mongo :=
  MkMongo (oneOf m) (bsonType m) (enum m) (properties m) (required m)
    (minProperties m) (maxProperties m) (additionalProperties m) (items m)
    (Some v) (maxItems m) (uniqueItems m) (minLength m) (maxLength m)
    (pattern m) (minimum m) (maximum m) (multipleOf m).
Definition set_maxItems (v : Z) (m : mongo) : mongo :=
  MkMongo (oneOf m) (bsonType m) (enum m) (properties m) (required m)
    (minProperties m) (maxProperties m) (additionalProperties m) (items m)
    (minItems m) (Some v) (uniqueItems m) (minLength m) (maxLength m)
    (pattern m) (minimum m) (maximum m) (multipleOf m).
Definition set_uniqueItems (v : bool) (m : mongo) : mongo :=
  MkMongo (oneOf m) (bsonType m) (enum m) (properties m) (required m)
    (minProperties m) (maxProperties m) (additionalProperties m) (items m)
    (minItems m) (maxItems m) (Some v) (minLength m) (maxLength m)
    (pattern m) (minimum m) (maximum m) (multipleOf m).
Definition set_minLength (v : Z) (m : mongo) : mongo :=
  MkMongo (oneOf m) (bsonType m) (enum m) (properties m) (required m)
    (minProperties m) (maxProperties m) (additionalProperties m) (items m)
    (minItems m) (maxItems m) (uniqueItems m) (Some v) (maxLength m)
    (pattern m) (minimum m) (maximum m) (multipleOf m).
Definition set_maxLength (v : Z) (m : mongo) : mongo :=
  MkMongo (oneOf m) (bsonType m) (enum m) (properties m) (required m)
    (minProperties m) (maxProperties m) (additionalProperties m) (items m)
    (minItems m) (maxItems m) (uniqueItems m) (minLength m) (Some v)
    (pattern m) (minimum m) (maximum m) (multipleOf m).
Definition set_pattern (v : string) (m : mongo) : mongo :=
  MkMongo (oneOf m) (bsonType m) (enum m) (properties m) (required m)
    (minProperties m) (maxProperties m) (additionalProperties m) (items m)
    (minItems m) (maxItems m) (uniqueItems m) (minLength m) (maxLength m)
    (Some v) (minimum m) (maximum m) (multipleOf m).
Definition set_minimum (v : Z) (m : mongo) : mongo :=
  MkMongo (oneOf m) (bsonType m) (enum m) (properties m) (required m)
    (minProperties m) (maxProperties m) (additionalProperties m) (items m)
    (minItems m) (maxItems m) (uniqueItems m) (minLength m) (maxLength m)
    (pattern m) (Some v) (maximum m) (multipleOf m).
Definition set_maximum (v : Z) (m : mongo) : mongo :=
  MkMongo (oneOf m) (bsonType m) (enum m) (properties m) (required m)
    (minProperties m) (maxProperties m) (additionalProperties m) (items m)
    (minItems m) (maxItems m) (uniqueItems m) (minLength m) (maxLength m)
    (pattern m) (minimum m) (Some v) (multipleOf m).

(** ** [zodToBsonSchema] (src/types.ts, lines 761-936) *)

Definition objectIdPattern : string := "^[0-9a-fA-F]{24}$".

Definition emailPattern : string :=
  "^[a-zA-Z0-9._%+-]+@[a-zA-Z0-9.-]+\.[a-zA-Z]{2,}$".

(** [export const zodObjectId = z.string().regex(new RegExp(objectIdPattern))] *)
Definition zodObjectId : zod := ZString [SRegex objectIdPattern].

Definition is_bson (bt : string) (m : mongo) : bool :=
  match bsonType m with
  | Some b => String.eqb b bt
  | None => false
  end.

(** [checks.some(check => check.kind === 'regex' && check.regex.source === objectIdPattern)] *)
Definition is_objectId_check (c : string_check) : bool :=
  match c with
  | SRegex src => String.eqb src objectIdPattern
  | _ => false
  end.

(** One iteration of the [checks.forEach] of the string case. *)
Definition string_check_step (s : mongo) (c : string_check) : mongo :=
  match c with
  | SMin v => set_minLength v s
  | SMax v => set_maxLength v s
  | SRegex src => set_pattern src s
  | SEmail => set_pattern emailPattern s
  | _ => s
  end.

(** [const numbers = [{bsonType:'int'}, {bsonType:'long'}, {bsonType:'double'}, {bsonType:'decimal'}]] *)
Definition numbers : list mongo :=
  [mk_bson "int"; mk_bson "long"; mk_bson "double"; mk_bson "decimal"].

(** One iteration of the [checks.forEach] of the number case, on
    [numberSchema.oneOf]. *)
Definition number_check_step (alts : list mongo) (c : number_check) : list mongo :=
  match c with
  | NMin v => map (set_minimum v) alts
  | NMax v => map (set_maximum v) alts
  | NInt => filter (fun t => is_bson "int" t || is_bson "long" t) alts
  | _ => alts
  end.

Definition is_optional (z : zod) : bool :=
  match z with
  | ZOptional _ => true
  | _ => false
  end.

(** [xs.map(f)] with a throwing [f]: the first exception propagates. *)
Fixpoint map_result {A B} (f : A -> result B) (l : list A) : result (list B) :=
  match l with
  | [] => Ok []
  | x :: rest =>
      y <- f x ;;
      ys <- map_result f rest ;;
      Ok (y :: ys)
  end.

(** The [for (const [key, value] of Object.entries(shape))] loop of the
    object case, with [zodToBsonSchema] as [conv]: it fills [properties]
    and pushes onto [required] each key whose value is not a [ZodOptional]. *)
Fixpoint shape_entries_loop (conv : zod -> result mongo)
    (l : list (string * zod)) : result (list (string * mongo) * list string) :=
  match l with
  | [] => Ok ([], [])
  | (key, value) :: rest =>
      m <- conv value ;;
      pr <- shape_entries_loop conv rest ;;
      Ok ((key, m) :: fst pr,
          if is_optional value then snd pr else key :: snd pr)
  end.

Fixpoint zodToBsonSchema (z : zod) : result mongo :=
  match z with
  | ZOptional inner => zodToBsonSchema inner
  | ZNullable inner =>
      innerSchema <- zodToBsonSchema inner ;;
      Ok (mk_oneOf [mk_bson "null"; innerSchema])
  | ZUndefined => Ok mongo_empty
  | ZUnion options =>
      ms <- map_result zodToBsonSchema options ;;
      Ok (mk_oneOf ms)
  | ZObject shape _ =>
      (* the [for (const [key, value] of Object.entries(shape))] loop,
         returning [properties] and [required] *)
      pr <- shape_entries_loop zodToBsonSchema shape ;;
      let '(props, req) := pr in
      let o := set_properties props (mk_bson "object") in
      Ok (if Nat.ltb 0 (length req) then set_required req o else o)
  | ZRecord valueType =>
      m <- zodToBsonSchema valueType ;;
      Ok (set_additionalProperties (inr m) (mk_bson "object"))
  | ZArray element minL maxL =>
      it <- zodToBsonSchema element ;;
      let a := set_items (inl it) (mk_bson "array") in
      let a := match minL with Some v => set_minItems v a | None => a end in
      let a := match maxL with Some v => set_maxItems v a | None => a end in
      Ok a
  | ZString checks =>
      if existsb is_objectId_check checks
      then Ok (mk_bson "objectId")
      else Ok (fold_left string_check_step checks (mk_bson "string"))
  | ZNumber checks =>
      Ok (mk_oneOf (fold_left number_check_step checks numbers))
  | ZBoolean => Ok (mk_bson "bool")
  | ZDate => Ok (mk_bson "date")
  | ZEnum values => Ok (set_enum values (mk_bson "string"))
  | ZNativeEnum values => Ok (set_enum (map snd values) (mk_bson "string"))
  | ZAny => Ok mongo_empty
  | ZEffects _ _ | ZOtherType _ =>
      Err ("Unsupported Zod type: " ++ constructor_name z)
  end.

(** ** [createMongoValidator] (src/types.ts, lines 938-942)

    The result object [{ $jsonSchema: ... }] as its list of entries. *)
Definition createMongoValidator (z : zod) : result (list (string * mongo)) :=
  s <- zodToBsonSchema z ;;
  Ok [("$jsonSchema", s)].

(** ** [mongoSchemaToZod] (src/types.ts, lines 944-1105) *)

Definition bsonType_text (bt : option string) : string :=
  match bt with
  | Some b => b
  | None => "undefined"
  end.

(** [if (x !== undefined) schema = schema.check(x)] for a check list. *)
Definition opt_check {A B} (mk : A -> B) (x : option A) : list B :=
  match x with
  | Some v => [mk v]
  | None => []
  end.

Definition mem_string (k : string) (l : list string) : bool :=
  existsb (String.eqb k) l.

(** [Object.entries(undefined)] *)
Definition entries_undefined_error : string :=
  "TypeError: Cannot convert undefined or null to object".

(** [mongoSchemaToZod(undefined)] evaluates ['oneOf' in undefined]. *)
Definition in_undefined_error : string :=
  "TypeError: Cannot use 'in' operator to search for 'oneOf' in undefined".

(** The [for (const [key, value] of Object.entries(mongoSchema.properties))]
    loop of the object case, with [mongoSchemaToZod] as [conv]. *)
Fixpoint properties_loop (conv : mongo -> result zod) (requiredSet : list string)
    (l : list (string * mongo)) : result (list (string * zod)) :=
  match l with
  | [] => Ok []
  | (key, value) :: rest =>
      fieldSchema <- conv value ;;
      sh <- properties_loop conv requiredSet rest ;;
      Ok ((key, if mem_string key requiredSet
                then fieldSchema
                else ZOptional fieldSchema) :: sh)
  end.

Fixpoint mongoSchemaToZod (m : mongo) : result zod :=
  match m with
  | MkMongo oneOf_ bt en props req minP maxP addl its minI maxI uniq
            minL maxL pat mini maxi mult =>
    match oneOf_ with
    | Some l =>
        (* if ('oneOf' in mongoSchema) *)
        schemas <- map_result mongoSchemaToZod l ;;
        Ok (ZUnion schemas)
    | None =>
    if is_bson "array" m then
      elementSchema <-
        match its with
        | Some (inr l) =>
            match l with
            | [x] => mongoSchemaToZod x
            | _ =>
                zs <- map_result mongoSchemaToZod l ;;
                Ok (ZUnion zs)
            end
        | Some (inl x) => mongoSchemaToZod x
        | None => Err in_undefined_error
        end ;;
      let arraySchema := ZArray elementSchema minI maxI in
      match uniq with
      | Some true => Ok (ZEffects arraySchema ERefineUniqueItems)
      | _ => Ok arraySchema
      end
    else if is_bson "object" m then
      match props with
      | None => Err entries_undefined_error
      | Some ps =>
          let requiredSet := match req with Some r => r | None => [] end in
          shape <- properties_loop mongoSchemaToZod requiredSet ps ;;
          let baseSchema :=
            ZObject shape (match addl with
                           | Some (inl false) => UKStrict
                           | _ => UKPassthrough
                           end) in
          match minP, maxP with
          | None, None => Ok baseSchema
          | _, _ => Ok (ZEffects baseSchema (ESuperRefineProperties minP maxP))
          end
      end
    else if is_bson "string" m then
      let stringSchema :=
        ZString (opt_check SMin minL ++ opt_check SMax maxL
                 ++ opt_check SRegex pat) in
      match en with
      | Some values => Ok (ZEnum values)
      | None => Ok stringSchema
      end
    else if is_bson "bool" m then Ok ZBoolean
    else if is_bson "objectId" m then Ok zodObjectId
    else if is_bson "date" m then Ok ZDate
    else if is_bson "uuid" m then Ok (ZString [SUuid])
    else if is_bson "binData" m then Ok (ZEffects (ZString []) ETransformBase64)
    else if existsb (fun t => is_bson t m)
                    ["number"; "double"; "int"; "long"; "decimal"] then
      Ok (ZNumber ((if existsb (fun t => is_bson t m) ["int"; "long"]
                    then [NInt] else [])
                   ++ opt_check NMin mini ++ opt_check NMax maxi
                   ++ opt_check NMultipleOf mult))
    else Err ("Unsupported BSON type: " ++ bsonType_text bt)
    end
  end.

(** ** Values validated by the emitted schemas, and the refinements

    JavaScript values; an object or array carries its reference, which is
    what [Set] and [===] compare for objects. *)

Inductive jsval : Type :=
| JUndefined
| JNull
| JBool (b : bool)
| JNum (n : Z)
| JStr (s : string)
| JObj (ref : nat) (entries : list (string * jsval))
| JArr (ref : nat) (elems : list jsval).

(** SameValueZero, the equality of [Set] membership. *)
Definition same_value_zero (a b : jsval) : bool :=
  match a, b with
  | JUndefined, JUndefined => true
  | JNull, JNull => true
  | JBool x, JBool y => Bool.eqb x y
  | JNum x, JNum y => Z.eqb x y
  | JStr x, JStr y => String.eqb x y
  | JObj r _, JObj r' _ => Nat.eqb r r'
  | JArr r _, JArr r' _ => Nat.eqb r r'
  | _, _ => false
  end.

(** [new Set(items)]: the elements in insertion order, without repeats. *)
Definition new_Set (xs : list jsval) : list jsval :=
  fold_left (fun acc x => if existsb (same_value_zero x) acc
                          then acc else (acc ++ [x])%list) xs [].

(** Whether the refinement / transform check of an effect passes on the
    parsed value it receives ([true] on values the inner schema never
    hands it). *)
Definition effect_check (eff : effect) (v : jsval) : bool :=
  match eff, v with
  | ERefineUniqueItems, JArr _ items =>
      Nat.eqb (length (new_Set items)) (length items)
  | ESuperRefineProperties minP maxP, JObj _ entries =>
      (* validateProperties *)
      let count := Z.of_nat (length entries) in
      let minOk := match minP with None => true | Some a => Z.geb count a end in
      let maxOk := match maxP with None => true | Some b => Z.leb count b end in
      minOk && maxOk
  | _, _ => true
  end.

(** Structural (deep) equality of values: equality once references are
    forgotten. *)
Fixpoint forget_refs (v : jsval) : jsval :=
  match v with
  | JObj _ es => JObj 0 (map (fun '(k, x) => (k, forget_refs x)) es)
  | JArr _ xs => JArr 0 (map forget_refs xs)
  | _ => v
  end.

Definition structurally_equal (a b : jsval) : Prop :=
  forget_refs a = forget_refs b.

(** * Properties *)

(** Kinds [mongoSchemaToZod] has a branch for. *)
Definition handled_kinds : list string :=
  ["array"; "object"; "string"; "bool"; "objectId"; "date"; "uuid";
   "binData"; "number"; "double"; "int"; "long"; "decimal"].

(** The [required] list of an object descriptor ([[]] when the key is
    absent, as it is when no field is required). *)
Definition required_names (d : mongo) : list string :=
  match required d with
  | Some r => r
  | None => []
  end.

(** The refinement a converted schema carries at its top, if any. *)
Definition emitted_effect (z : zod) : option effect :=
  match z with
  | ZEffects _ e => Some e
  | _ => None
  end.

(** The value of the last check of the list that [f] selects, or [init]. *)
Definition last_from {A} (f : string_check -> option A)
    (checks : list string_check) (init : option A) : option A :=
  fold_left (fun acc c => match f c with Some v => Some v | None => acc end)
            checks init.

Definition min_of (c : string_check) : option Z :=
  match c with SMin v => Some v | _ => None end.
Definition max_of (c : string_check) : option Z :=
  match c with SMax v => Some v | _ => None end.
(** The checks that write [stringSchema.pattern]. *)
Definition pattern_of (c : string_check) : option string :=
  match c with
  | SRegex src => Some src
  | SEmail => Some emailPattern
  | _ => None
  end.

(** ** The earlier variant of the converters

    [zodToBson] / [bsonToZod] of src/types.ts, lines 433-741 (the same code
    as the compiled [zodToBsonSchema] / [mongoSchemaToZod] of lines
    110-346). A nullable wrapper is dropped, a number becomes one [int] or
    [double] node, unions, records, native enums and [undefined] are not
    handled, and the reverse direction has no [oneOf] branch. *)
Module Legacy.

Definition set_multipleOf (v : Z) (m : mongo) : mongo :=
  MkMongo (oneOf m) (bsonType m) (enum m) (properties m) (required m)
    (minProperties m) (maxProperties m) (additionalProperties m) (items m)
    (minItems m) (maxItems m) (uniqueItems m) (minLength m) (maxLength m)
    (pattern m) (minimum m) (maximum m) (Some v).

Definition is_int_check (c : number_check) : bool :=
  match c with NInt => true | _ => false end.

(** One iteration of the [checks.forEach] of the number case, on the single
    [numberSchema]. *)
Definition number_check_step (s : mongo) (c : number_check) : mongo :=
  match c with
  | NMin v => set_minimum v s
  | NMax v => set_maximum v s
  | NMultipleOf v => set_multipleOf v s
  | _ => s
  end.

Fixpoint zodToBson (z : zod) : result mongo :=
  match z with
  | ZOptional inner => zodToBson inner
  | ZNullable inner => zodToBson inner
  | ZObject shape _ =>
      pr <- shape_entries_loop zodToBson shape ;;
      let '(props, req) := pr in
      let o := set_properties props (mk_bson "object") in
      Ok (if Nat.ltb 0 (length req) then set_required req o else o)
  | ZArray element minL maxL =>
      it <- zodToBson element ;;
      let a := set_items (inl it) (mk_bson "array") in
      let a := match minL with Some v => set_minItems v a | None => a end in
      let a := match maxL with Some v => set_maxItems v a | None => a end in
      Ok a
  | ZString checks =>
      if existsb is_objectId_check checks
      then Ok (mk_bson "objectId")
      else Ok (fold_left string_check_step checks (mk_bson "string"))
  | ZNumber checks =>
      let isInt := existsb is_int_check checks in
      Ok (fold_left number_check_step checks
            (mk_bson (if isInt then "int" else "double")))
  | ZBoolean => Ok (mk_bson "bool")
  | ZDate => Ok (mk_bson "date")
  | ZEnum values => Ok (set_enum values (mk_bson "string"))
  | ZAny => Ok mongo_empty
  | _ => Err ("Unsupported Zod type: " ++ constructor_name z)
  end.

Fixpoint bsonToZod (m : mongo) : result zod :=
  match m with
  | MkMongo _ bt en props req minP maxP addl its minI maxI uniq
            minL maxL pat mini maxi mult =>
    if is_bson "array" m then
      elementSchema <-
        match its with
        | Some (inr l) =>
            match l with
            | [x] => bsonToZod x
            | _ => zs <- map_result bsonToZod l ;; Ok (ZUnion zs)
            end
        | Some (inl x) => bsonToZod x
        | None => Err in_undefined_error
        end ;;
      let arraySchema := ZArray elementSchema minI maxI in
      match uniq with
      | Some true => Ok (ZEffects arraySchema ERefineUniqueItems)
      | _ => Ok arraySchema
      end
    else if is_bson "object" m then
      match props with
      | None => Err entries_undefined_error
      | Some ps =>
          let requiredSet := match req with Some r => r | None => [] end in
          shape <- properties_loop bsonToZod requiredSet ps ;;
          let baseSchema :=
            ZObject shape (match addl with
                           | Some (inl false) => UKStrict
                           | _ => UKPassthrough
                           end) in
          match minP, maxP with
          | None, None => Ok baseSchema
          | _, _ => Ok (ZEffects baseSchema (ESuperRefineProperties minP maxP))
          end
      end
    else if is_bson "string" m then
      let stringSchema :=
        ZString (opt_check SMin minL ++ opt_check SMax maxL
                 ++ opt_check SRegex pat) in
      match en with
      | Some values => Ok (ZEnum values)
      | None => Ok stringSchema
      end
    else if is_bson "bool" m then Ok ZBoolean
    else if is_bson "objectId" m then Ok (ZString [SRegex "^[0-9a-fA-F]{24}$"])
    else if is_bson "date" m then Ok ZDate
    else if is_bson "uuid" m then Ok (ZString [SUuid])
    else if is_bson "binData" m then Ok (ZEffects (ZString []) ETransformBase64)
    else if existsb (fun t => is_bson t m)
                    ["number"; "double"; "int"; "long"; "decimal"] then
      Ok (ZNumber ((if existsb (fun t => is_bson t m) ["int"; "long"]
                    then [NInt] else [])
                   ++ opt_check NMin mini ++ opt_check NMax maxi
                   ++ opt_check NMultipleOf mult))
    else Err ("Unsupported BSON type: " ++ bsonType_text bt)
  end.

End Legacy.

(** ** Helpers for the number case *)

(** The value of the last number check that [f] selects, or [init]. *)
Definition nlast_from (f : number_check -> option Z)
    (checks : list number_check) (init : option Z) : option Z :=
  fold_left (fun acc c => match f c with Some v => Some v | None => acc end)
            checks init.

Definition nmin_of (c : number_check) : option Z :=
  match c with NMin v => Some v | _ => None end.
Definition nmax_of (c : number_check) : option Z :=
  match c with NMax v => Some v | _ => None end.
Definition nmult_of (c : number_check) : option Z :=
  match c with NMultipleOf v => Some v | _ => None end.

(** Numeric alternatives [{bsonType: k, minimum?, maximum?}], one per kind. *)
Definition num_alts (kinds : list string) (mn mx : option Z) : list mongo :=
  map (fun k => MkMongo None (Some k) None None None None None None None None
                        None None None None None mn mx None) kinds.

Definition is_intlong_node (t : mongo) : bool :=
  is_bson "int" t || is_bson "long" t.

(** ** Tree-wide predicates and induction *)

Definition present {A} (o : option A) : bool :=
  match o with Some _ => true | None => false end.

(** A descriptor node is a single-kind node or a [oneOf] node, not both. *)
Definition single_or_alternatives (n : mongo) : bool :=
  negb (present (oneOf n) && present (bsonType n)).




Definition is_int_kind (bt : string) : bool :=
  String.eqb bt "int" || String.eqb bt "long".

Definition number_kinds (checks : list number_check) : list string :=
  if existsb Legacy.is_int_check checks then ["int"; "long"]
  else ["int"; "long"; "double"; "decimal"].




(** The [bsonType] values the converter of the second variant can emit. *)
Definition legacy_kinds : list string :=
  ["object"; "array"; "objectId"; "string"; "int"; "double"; "bool"; "date"].

Definition legacy_node_ok (n : mongo) : bool :=
  negb (present (oneOf n)) &&
  match bsonType n with
  | None => true
  | Some t => mem_string t legacy_kinds
  end.

Ltac destruct_results H :=
  unfold rbind in H;
  repeat match type of H with
  | Ok _ = Ok _ => injection H as <-
  | Err _ = Ok _ => discriminate H
  | context [match ?x with _ => _ end] => destruct x eqn:?
  end.


(** [p] holds at every node of a descriptor. *)
Fixpoint mongo_all (p : mongo -> bool) (m : mongo) : bool :=
  p m &&
  match m with
  | MkMongo one _ _ props _ _ _ addl its _ _ _ _ _ _ _ _ _ =>
      match one with Some l => forallb (mongo_all p) l | None => true end &&
      match props with
      | Some ps => forallb (fun '(_, v) => mongo_all p v) ps
      | None => true
      end &&
      match addl with Some (inr a) => mongo_all p a | _ => true end &&
      match its with
      | Some (inl x) => mongo_all p x
      | Some (inr l) => forallb (mongo_all p) l
      | None => true
      end
  end.

Section ZodDeepInd.
Variable P : zod -> Prop.
Hypothesis HOptional : forall i, P i -> P (ZOptional i).
Hypothesis HNullable : forall i, P i -> P (ZNullable i).
Hypothesis HUnion : forall l, Forall P l -> P (ZUnion l).
Hypothesis HObject :
  forall sh uk, Forall (fun kv => P (snd kv)) sh -> P (ZObject sh uk).
Hypothesis HRecord : forall v, P v -> P (ZRecord v).
Hypothesis HArray : forall e mn mx, P e -> P (ZArray e mn mx).
Hypothesis HEffects : forall s e, P s -> P (ZEffects s e).
Hypothesis HUndefined : P ZUndefined.
Hypothesis HString : forall c, P (ZString c).
Hypothesis HNumber : forall c, P (ZNumber c).
Hypothesis HBoolean : P ZBoolean.
Hypothesis HDate : P ZDate.
Hypothesis HEnum : forall v, P (ZEnum v).
Hypothesis HNativeEnum : forall v, P (ZNativeEnum v).
Hypothesis HAny : P ZAny.
Hypothesis HOther : forall n, P (ZOtherType n).

(** Induction on Zod schemas that reaches the members of unions and the
    fields of objects. *)
Fixpoint zod_deep_ind (z : zod) : P z :=
  match z with
  | ZOptional i => HOptional i (zod_deep_ind i)
  | ZNullable i => HNullable i (zod_deep_ind i)
  | ZUndefined => HUndefined
  | ZUnion l =>
      HUnion l ((fix go (l : list zod) : Forall P l :=
                   match l with
                   | [] => Forall_nil _
                   | x :: r => Forall_cons x (zod_deep_ind x) (go r)
                   end) l)
  | ZObject sh uk =>
      HObject sh uk
        ((fix go (sh : list (string * zod))
            : Forall (fun kv => P (snd kv)) sh :=
            match sh with
            | [] => Forall_nil _
            | (k, v) :: r =>
                Forall_cons (P := fun kv => P (snd kv)) (k, v)
                  (zod_deep_ind v) (go r)
            end) sh)
  | ZRecord v => HRecord v (zod_deep_ind v)
  | ZArray e mn mx => HArray e mn mx (zod_deep_ind e)
  | ZString c => HString c
  | ZNumber c => HNumber c
  | ZBoolean => HBoolean
  | ZDate => HDate
  | ZEnum v => HEnum v
  | ZNativeEnum v => HNativeEnum v
  | ZAny => HAny
  | ZEffects s e => HEffects s e (zod_deep_ind s)
  | ZOtherType n => HOther n
  end.
End ZodDeepInd.

Lemma existsb_objectId_In (checks : list string_check) :
  In (SRegex objectIdPattern) checks -> existsb is_objectId_check checks = true.
Proof.
  intro H. apply existsb_exists. exists (SRegex objectIdPattern).
  split; [exact H | apply String.eqb_refl].
Qed.

(** C1: a string schema carrying the identifier-pattern regex (in particular
    one whose only check is that regex) becomes the bare descriptor
    [{bsonType: 'objectId'}], with no length or pattern keys, and that
    descriptor converts back to [z.string().regex(objectIdPattern)]. *)
Theorem objectId_string_roundtrip (checks : list string_check) :
  In (SRegex objectIdPattern) checks ->
  zodToBsonSchema (ZString checks) = Ok (mk_bson "objectId") /\
  minLength (mk_bson "objectId") = None /\
  maxLength (mk_bson "objectId") = None /\
  pattern (mk_bson "objectId") = None /\
  mongoSchemaToZod (mk_bson "objectId") = Ok (ZString [SRegex objectIdPattern]).
Proof.
  intro H. simpl. rewrite (existsb_objectId_In checks H).
  repeat split; reflexivity.
Qed.

Lemma objectId_string_roundtrip_witness :
  In (SRegex objectIdPattern) [SRegex objectIdPattern] /\
  zodToBsonSchema zodObjectId = Ok (mk_bson "objectId") /\
  mongoSchemaToZod (mk_bson "objectId") = Ok zodObjectId.
Proof.
  split; [left; reflexivity |].
  destruct (objectId_string_roundtrip [SRegex objectIdPattern]
              (or_introl eq_refl)) as (H1 & _ & _ & _ & H5).
  split; assumption.
Defined.

(** C8: [createMongoValidator] returns the one-entry object
    [{ $jsonSchema: zodToBsonSchema(z) }] when the conversion succeeds, and
    throws exactly the conversion's exception otherwise. *)
Theorem createMongoValidator_single_key (z : zod) :
  match createMongoValidator z, zodToBsonSchema z with
  | Ok v, Ok d => v = [("$jsonSchema", d)] /\ length v = 1
  | Err e1, Err e2 => e1 = e2
  | _, _ => False
  end.
Proof.
  unfold createMongoValidator. destruct (zodToBsonSchema z); simpl; auto.
Qed.

(** C9: a descriptor without [oneOf] whose [bsonType] has no branch in
    [mongoSchemaToZod] makes it throw [Unsupported BSON type: <kind>]. *)
Theorem unsupported_kind_throws (m : mongo) (bt : string) :
  oneOf m = None -> bsonType m = Some bt -> ~ In bt handled_kinds ->
  mongoSchemaToZod m = Err ("Unsupported BSON type: " ++ bt).
Proof.
  intros Hone Hbt Hnot. destruct m as [one b ? ? ? ? ? ? ? ? ? ? ? ? ? ? ? ?].
  simpl in Hone, Hbt. subst one b. unfold handled_kinds in Hnot. simpl in Hnot.
  simpl. unfold is_bson; simpl.
  repeat match goal with
  | |- context [String.eqb bt ?s] =>
      let E := fresh in
      destruct (String.eqb bt s) eqn:E;
      [apply String.eqb_eq in E; subst bt; exfalso; apply Hnot; tauto |]
  end.
  reflexivity.
Qed.

Lemma unsupported_kind_throws_witness :
  mongoSchemaToZod (mk_bson "timestamp") = Err "Unsupported BSON type: timestamp".
Proof.
  apply (unsupported_kind_throws (mk_bson "timestamp") "timestamp");
    [reflexivity | reflexivity | simpl; intuition discriminate].
Defined.

(** C10: with nullable widening, a nullable schema becomes
    [{oneOf: [{bsonType: 'null'}, inner]}], and converting that descriptor
    back always throws [Unsupported BSON type: null]. *)
Theorem nullable_never_roundtrips (z : zod) (d : mongo) :
  zodToBsonSchema (ZNullable z) = Ok d ->
  (exists l, oneOf d = Some l /\ In (mk_bson "null") l) /\
  mongoSchemaToZod d = Err "Unsupported BSON type: null".
Proof.
  simpl. destruct (zodToBsonSchema z) as [inner | e]; simpl; intro H;
    inversion H; subst; clear H.
  split.
  - exists [mk_bson "null"; inner]. split; [reflexivity | left; reflexivity].
  - reflexivity.
Qed.

Lemma nullable_never_roundtrips_witness :
  zodToBsonSchema (ZNullable ZBoolean) = Ok (mk_oneOf [mk_bson "null"; mk_bson "bool"]) /\
  mongoSchemaToZod (mk_oneOf [mk_bson "null"; mk_bson "bool"])
    = Err "Unsupported BSON type: null".
Proof.
  split; [reflexivity |].
  apply (proj2 (nullable_never_roundtrips ZBoolean _ eq_refl)).
Defined.

(** C5: a [oneOf] descriptor with a single member is still converted to a
    [z.union] of that one member; the [items] list of an array descriptor,
    by contrast, has its one-member case unwrapped. *)
Theorem oneOf_single_member_wrapped :
  mongoSchemaToZod (mk_oneOf [mk_bson "bool"]) = Ok (ZUnion [ZBoolean]) /\
  ZUnion [ZBoolean] <> ZBoolean /\
  mongoSchemaToZod (set_items (inr [mk_bson "bool"]) (mk_bson "array"))
    = Ok (ZArray ZBoolean None None).
Proof.
  split; [reflexivity | split; [discriminate | reflexivity]].
Qed.

(** C3: the number case copies [min] and [max] checks onto the
    alternatives and narrows them on [int], but drops a [multipleOf]
    check: [z.number().multipleOf(5)] gives the four plain numeric kinds. *)
Theorem number_multipleOf_dropped :
  zodToBsonSchema (ZNumber [NMultipleOf 5]) = Ok (mk_oneOf numbers) /\
  Forall (fun a => multipleOf a = None) numbers /\
  zodToBsonSchema (ZNumber [NMin 1; NInt])
    = Ok (mk_oneOf [set_minimum 1 (mk_bson "int"); set_minimum 1 (mk_bson "long")]).
Proof.
  split; [reflexivity |]. split; [repeat constructor | reflexivity].
Qed.

(** C2: the uniqueness refinement [new Set(items).size === items.length]
    compares objects by reference: it accepts [["x","y"]], rejects
    [["x","x"]], and accepts two distinct but structurally equal objects. *)
Theorem uniqueItems_reference_equality :
  let d := set_uniqueItems true
             (set_items (inl (set_properties [] (mk_bson "object")))
                        (mk_bson "array")) in
  mongoSchemaToZod d
    = Ok (ZEffects (ZArray (ZObject [] UKPassthrough) None None) ERefineUniqueItems) /\
  effect_check ERefineUniqueItems (JArr 0 [JStr "x"; JStr "y"]) = true /\
  effect_check ERefineUniqueItems (JArr 0 [JStr "x"; JStr "x"]) = false /\
  structurally_equal (JObj 1 []) (JObj 2 []) /\
  effect_check ERefineUniqueItems (JArr 0 [JObj 1 []; JObj 2 []]) = true.
Proof.
  repeat split; reflexivity.
Qed.

Lemma string_check_fold (checks : list string_check) (s : mongo) :
  fold_left string_check_step checks s =
  MkMongo (oneOf s) (bsonType s) (enum s) (properties s) (required s)
    (minProperties s) (maxProperties s) (additionalProperties s) (items s)
    (minItems s) (maxItems s) (uniqueItems s)
    (last_from min_of checks (minLength s))
    (last_from max_of checks (maxLength s))
    (last_from pattern_of checks (pattern s))
    (minimum s) (maximum s) (multipleOf s).
Proof.
  revert s. induction checks as [| c rest IH]; intro s.
  - destruct s; reflexivity.
  - simpl. rewrite IH. destruct c; reflexivity.
Qed.

(** C4 (counterexample): a regex check followed by an email check does not
    both reach the descriptor: the email pattern overwrites the regex. *)
Lemma string_regex_and_email_not_composed :
  zodToBsonSchema (ZString [SRegex "^a"; SEmail])
    = Ok (set_pattern emailPattern (mk_bson "string")) /\
  pattern (set_pattern emailPattern (mk_bson "string")) <> Some "^a".
Proof.
  split; [reflexivity | discriminate].
Qed.

(** C4 (amended): without the identifier-pattern regex, a string schema
    becomes a [string] descriptor whose [minLength] and [maxLength] come
    from the last [min] and [max] checks and whose [pattern] comes from the
    last regex-or-email check (its source, or the fixed email pattern);
    these compose, but of several regex / email checks only the last one
    is kept; no other key is set. *)
Theorem string_constraints_last_wins (checks : list string_check) :
  existsb is_objectId_check checks = false ->
  zodToBsonSchema (ZString checks) =
  Ok (MkMongo None (Some "string") None None None None None None None None
        None None (last_from min_of checks None) (last_from max_of checks None)
        (last_from pattern_of checks None) None None None).
Proof.
  intro H. simpl. rewrite H. rewrite string_check_fold. reflexivity.
Qed.

Lemma string_constraints_last_wins_witness :
  zodToBsonSchema (ZString [SMin 2; SMax 9; SRegex "^a"])
    = Ok (set_pattern "^a" (set_maxLength 9 (set_minLength 2 (mk_bson "string")))).
Proof.
  rewrite (string_constraints_last_wins [SMin 2; SMax 9; SRegex "^a"] eq_refl).
  reflexivity.
Defined.

Lemma shape_entries_loop_required (conv : zod -> result mongo)
    (l : list (string * zod)) (pr : list (string * mongo) * list string) :
  shape_entries_loop conv l = Ok pr ->
  snd pr = map fst (filter (fun kv => negb (is_optional (snd kv))) l).
Proof.
  revert pr. induction l as [| [key value] rest IH]; intros pr H; simpl in H.
  - inversion H. reflexivity.
  - destruct (conv value); [| discriminate]. simpl in H.
    destruct (shape_entries_loop conv rest) as [pr' |]; [| discriminate].
    simpl in H. inversion H; subst; clear H. simpl.
    rewrite (IH pr' eq_refl). destruct (is_optional value); reflexivity.
Qed.

Lemma in_required_filter (k : string) (l : list (string * zod)) :
  In k (map fst (filter (fun kv => negb (is_optional (snd kv))) l)) <->
  exists v, In (k, v) l /\ is_optional v = false.
Proof.
  rewrite in_map_iff. split.
  - intros [[k' v] [Hk Hin]]. simpl in Hk. subst k'.
    apply filter_In in Hin. destruct Hin as [Hin Hopt].
    exists v. split; [exact Hin |]. simpl in Hopt.
    destruct (is_optional v); [discriminate | reflexivity].
  - intros [v [Hin Hopt]]. exists (k, v). split; [reflexivity |].
    apply filter_In. split; [exact Hin | simpl; rewrite Hopt; reflexivity].
Qed.

(** C6: the [required] list of a converted object names exactly the fields
    whose schema is not a [ZodOptional] wrapper (a [ZodNullable] field is
    required); the key is left out when no field is required. *)
Theorem object_required_fields (shape : list (string * zod))
    (uk : unknown_keys) (d : mongo) :
  zodToBsonSchema (ZObject shape uk) = Ok d ->
  forall k, In k (required_names d) <->
            exists v, In (k, v) shape /\ is_optional v = false.
Proof.
  intro H. simpl in H.
  destruct (shape_entries_loop zodToBsonSchema shape) as [[props req] |] eqn:E;
    [| discriminate].
  apply shape_entries_loop_required in E. simpl in E, H.
  intro k. rewrite <- in_required_filter, <- E.
  destruct (Nat.ltb 0 (length req)) eqn:L; injection H as H; subst d.
  - reflexivity.
  - unfold required_names; simpl.
    destruct req as [| r rs]; [reflexivity | discriminate].
Qed.

Lemma object_required_fields_witness :
  (exists d, zodToBsonSchema
               (ZObject [("a", ZString []); ("b", ZOptional (ZString []))] UKStrip)
             = Ok d /\ required d = Some ["a"]) /\
  (exists d, zodToBsonSchema
               (ZObject [("a", ZString []); ("c", ZNullable (ZString []))] UKStrip)
             = Ok d /\ In "c" (required_names d)).
Proof.
  split.
  - eexists. split; reflexivity.
  - eexists. split; [reflexivity |].
    apply (object_required_fields
             [("a", ZString []); ("c", ZNullable (ZString []))] UKStrip);
      [reflexivity |].
    exists (ZNullable (ZString [])). split; [right; left; reflexivity | reflexivity].
Defined.

Lemma property_count_check (minP maxP : option Z) (r : nat)
    (es : list (string * jsval)) :
  effect_check (ESuperRefineProperties minP maxP) (JObj r es) = false <->
  ((exists a, minP = Some a /\ Z.of_nat (length es) < a) \/
   (exists b, maxP = Some b /\ b < Z.of_nat (length es)))%Z.
Proof.
  simpl. set (n := Z.of_nat (length es)).
  split.
  - intro H. destruct minP as [a |], maxP as [b |].
    + destruct (Z.geb n a) eqn:Ea.
      * right. exists b. split; [reflexivity |].
        simpl in H. apply Z.leb_gt in H. exact H.
      * left. exists a. split; [reflexivity |].
        rewrite Z.geb_leb in Ea. apply Z.leb_gt in Ea. exact Ea.
    + left. exists a. split; [reflexivity |].
      rewrite andb_true_r, Z.geb_leb in H. apply Z.leb_gt in H. exact H.
    + right. exists b. split; [reflexivity |]. apply Z.leb_gt in H. exact H.
    + discriminate.
  - intros [[a [Ha Hlt]] | [b [Hb Hlt]]]; subst.
    + rewrite Z.geb_leb. apply Z.leb_gt in Hlt. rewrite Hlt. reflexivity.
    + apply Z.leb_gt in Hlt. rewrite Hlt, andb_false_r. reflexivity.
Qed.

(** C7: converting an object descriptor attaches a refinement exactly when
    [minProperties] or [maxProperties] is present, and that refinement
    fails on an object exactly when its key count is below the minimum or
    above the maximum (an absent bound imposes nothing). *)
Theorem object_property_count_refinement (m : mongo) (z : zod) :
  oneOf m = None -> bsonType m = Some "object" -> mongoSchemaToZod m = Ok z ->
  (emitted_effect z <> None <->
     (minProperties m <> None \/ maxProperties m <> None)) /\
  (forall e, emitted_effect z = Some e ->
   forall r es,
     effect_check e (JObj r es) = false <->
     ((exists a, minProperties m = Some a /\ Z.of_nat (length es) < a) \/
      (exists b, maxProperties m = Some b /\ b < Z.of_nat (length es)))%Z).
Proof.
  intros Hone Hbt H.
  destruct m as [one b en props req minP maxP addl its minI maxI uniq
                 minL maxL pat mini maxi mult].
  simpl in Hone, Hbt |- *. subst one b. simpl in H.
  destruct props as [ps |]; [| discriminate].
  destruct (properties_loop mongoSchemaToZod _ ps) as [shape |]; [| discriminate].
  simpl in H.
  destruct minP as [a |], maxP as [c |]; injection H as H; subst z; simpl.
  4: { split.
       - split; [intro Hn; exfalso; apply Hn; reflexivity |].
         intros [Hn | Hn]; exfalso; apply Hn; reflexivity.
       - intros e He. discriminate. }
  all: split; [split; intros _; [left + right; discriminate | discriminate] |].
  all: intros e He; injection He as He; subst e; apply property_count_check.
Qed.

Lemma object_property_count_refinement_witness :
  let d := MkMongo None (Some "object") None (Some [("a", mk_bson "string")])
             None (Some 1%Z) (Some 2%Z) None None None None None None None None
             None None None in
  mongoSchemaToZod d
    = Ok (ZEffects (ZObject [("a", ZOptional (ZString []))] UKPassthrough)
                   (ESuperRefineProperties (Some 1%Z) (Some 2%Z))) /\
  effect_check (ESuperRefineProperties (Some 1%Z) (Some 2%Z)) (JObj 0 []) = false /\
  effect_check (ESuperRefineProperties (Some 1%Z) (Some 2%Z))
               (JObj 0 [("a", JStr "x")]) = true.
Proof.
  intro d. split; [reflexivity |]. split; [| reflexivity].
  destruct (object_property_count_refinement d
              (ZEffects (ZObject [("a", ZOptional (ZString []))] UKPassthrough)
                        (ESuperRefineProperties (Some 1%Z) (Some 2%Z)))
              eq_refl eq_refl eq_refl) as [_ H].
  apply (H _ eq_refl 0%nat []). left. exists 1%Z. split; reflexivity.
Defined.

(** * Further properties of the converters *)

Lemma map_result_Forall2 {A B} (f : A -> result B) (l : list A) (ys : list B) :
  map_result f l = Ok ys -> Forall2 (fun x y => f x = Ok y) l ys.
Proof.
  revert ys. induction l as [| x rest IH]; intros ys H; simpl in H.
  - injection H as <-. constructor.
  - destruct (f x) as [y |] eqn:Ef; [| discriminate]. simpl in H.
    destruct (map_result f rest) as [ys' |]; [| discriminate].
    simpl in H. injection H as <-. constructor; [exact Ef | apply IH; reflexivity].
Qed.

Lemma shape_entries_loop_props (conv : zod -> result mongo)
    (l : list (string * zod)) (pr : list (string * mongo) * list string) :
  shape_entries_loop conv l = Ok pr ->
  Forall2 (fun kv km => fst kv = fst km /\ conv (snd kv) = Ok (snd km)) l (fst pr).
Proof.
  revert pr. induction l as [| [key value] rest IH]; intros pr H; simpl in H.
  - injection H as <-. constructor.
  - destruct (conv value) as [m |] eqn:Ec; [| discriminate]. simpl in H.
    destruct (shape_entries_loop conv rest) as [pr' |]; [| discriminate].
    simpl in H. injection H as <-. simpl.
    constructor; [split; [reflexivity | exact Ec] | apply IH; reflexivity].
Qed.

Lemma properties_loop_fields (conv : mongo -> result zod) (req : list string)
    (l : list (string * mongo)) (sh : list (string * zod)) :
  properties_loop conv req l = Ok sh ->
  Forall2 (fun km kz => fst km = fst kz /\
             exists zf, conv (snd km) = Ok zf /\
                        snd kz = if mem_string (fst km) req then zf else ZOptional zf)
          l sh.
Proof.
  revert sh. induction l as [| [key value] rest IH]; intros sh H; simpl in H.
  - injection H as <-. constructor.
  - destruct (conv value) as [zf |] eqn:Ec; [| discriminate]. simpl in H.
    destruct (properties_loop conv req rest) as [sh' |]; [| discriminate].
    simpl in H. injection H as <-.
    constructor; [split; [reflexivity | exists zf; split; [exact Ec | reflexivity]]
                 | apply IH; reflexivity].
Qed.





(** X3: converting an array schema and back gives the round trip of its
    element with the same length bounds, and no uniqueness refinement. *)
Theorem array_roundtrip (element : zod) (mn mx : option Z) :
  rbind (zodToBsonSchema (ZArray element mn mx)) mongoSchemaToZod =
  rbind (rbind (zodToBsonSchema element) mongoSchemaToZod)
        (fun e => Ok (ZArray e mn mx)).
Proof.
  simpl. destruct (zodToBsonSchema element) as [it |]; [| reflexivity].
  destruct mn, mx; simpl; destruct (mongoSchemaToZod it); reflexivity.
Qed.



(** X5: a descriptor with neither [oneOf] nor [bsonType] (such as the [{}]
    produced for [z.any()] and [z.undefined()]) makes [mongoSchemaToZod]
    throw [Unsupported BSON type: undefined]. *)
Theorem kindless_descriptor_throws (m : mongo) :
  oneOf m = None -> bsonType m = None ->
  mongoSchemaToZod m = Err "Unsupported BSON type: undefined".
Proof.
  destruct m; simpl. intros -> ->. reflexivity.
Qed.

Lemma kindless_descriptor_throws_witness :
  zodToBsonSchema ZAny = Ok mongo_empty /\
  zodToBsonSchema ZUndefined = Ok mongo_empty /\
  mongoSchemaToZod mongo_empty = Err "Unsupported BSON type: undefined".
Proof.
  split; [reflexivity | split; [reflexivity |]].
  apply kindless_descriptor_throws; reflexivity.
Defined.






Lemma filter_num_alts (kinds : list string) (mn mx : option Z) :
  filter is_intlong_node (num_alts kinds mn mx) =
  num_alts (filter (fun k => String.eqb k "int" || String.eqb k "long") kinds) mn mx.
Proof.
  induction kinds as [| k rest IH]; [reflexivity |].
  simpl. unfold is_intlong_node at 1, is_bson at 1 2. simpl.
  destruct (String.eqb k "int" || String.eqb k "long"); simpl; rewrite IH; reflexivity.
Qed.

Lemma filter_idem {A} (f : A -> bool) (l : list A) :
  filter f (filter f l) = filter f l.
Proof.
  induction l as [| x rest IH]; [reflexivity |].
  simpl. destruct (f x) eqn:E; simpl; [rewrite E, IH | rewrite IH]; reflexivity.
Qed.

Lemma num_alts_set_minimum (v : Z) (kinds : list string) (mn mx : option Z) :
  map (set_minimum v) (num_alts kinds mn mx) = num_alts kinds (Some v) mx.
Proof. unfold num_alts. rewrite map_map. reflexivity. Qed.

Lemma num_alts_set_maximum (v : Z) (kinds : list string) (mn mx : option Z) :
  map (set_maximum v) (num_alts kinds mn mx) = num_alts kinds mn (Some v).
Proof. unfold num_alts. rewrite map_map. reflexivity. Qed.

Lemma number_check_fold (checks : list number_check) (kinds : list string)
    (mn mx : option Z) :
  fold_left number_check_step checks (num_alts kinds mn mx) =
  num_alts (if existsb Legacy.is_int_check checks
            then filter (fun k => String.eqb k "int" || String.eqb k "long") kinds
            else kinds)
           (nlast_from nmin_of checks mn) (nlast_from nmax_of checks mx).
Proof.
  revert kinds mn mx. induction checks as [| c rest IH]; intros kinds mn mx.
  - reflexivity.
  - unfold nlast_from in *.
    destruct c; cbn [fold_left number_check_step existsb Legacy.is_int_check orb
                     nmin_of nmax_of].
    + rewrite num_alts_set_minimum. apply IH.
    + rewrite num_alts_set_maximum. apply IH.
    + change (filter (fun t => is_bson "int" t || is_bson "long" t))
        with (filter is_intlong_node).
      rewrite filter_num_alts, IH.
      destruct (existsb Legacy.is_int_check rest); [rewrite filter_idem |];
        reflexivity.
    + apply IH.
    + apply IH.
Qed.

(** The numeric kinds the number case keeps. *)
(** X9: a number schema becomes [{oneOf: [...]}] over the kinds [int],
    [long], [double], [decimal] (only [int] and [long] when an [int] check is
    present), each carrying the last [min] as [minimum] and the last [max] as
    [maximum], and nothing else. *)
Theorem number_to_alternatives (checks : list number_check) :
  zodToBsonSchema (ZNumber checks) =
  Ok (mk_oneOf (num_alts (number_kinds checks)
                         (nlast_from nmin_of checks None)
                         (nlast_from nmax_of checks None))).
Proof.
  simpl. change numbers with (num_alts ["int"; "long"; "double"; "decimal"] None None).
  rewrite number_check_fold. unfold number_kinds.
  destruct (existsb Legacy.is_int_check checks); reflexivity.
Qed.

(** X10: converting a number schema and back gives a union of one
    [z.number()] per kept kind ([.int()] on [int] and [long]) with the last
    [min] and [max]; any [multipleOf] is gone. *)
Theorem number_roundtrip (checks : list number_check) :
  rbind (zodToBsonSchema (ZNumber checks)) mongoSchemaToZod =
  Ok (ZUnion (map (fun k => ZNumber ((if is_int_kind k then [NInt] else [])
                                     ++ opt_check NMin (nlast_from nmin_of checks None)
                                     ++ opt_check NMax (nlast_from nmax_of checks None)))
                  (number_kinds checks))).
Proof.
  rewrite number_to_alternatives. unfold number_kinds.
  destruct (existsb Legacy.is_int_check checks);
    destruct (nlast_from nmin_of checks None), (nlast_from nmax_of checks None);
    reflexivity.
Qed.

(** X11: converting a string schema without the identifier-pattern regex
    and back gives a string schema with the last [min], the last [max] and
    the last regex-or-email pattern, in that order; other checks are lost. *)
Theorem string_roundtrip (checks : list string_check) :
  existsb is_objectId_check checks = false ->
  rbind (zodToBsonSchema (ZString checks)) mongoSchemaToZod =
  Ok (ZString (opt_check SMin (last_from min_of checks None)
               ++ opt_check SMax (last_from max_of checks None)
               ++ opt_check SRegex (last_from pattern_of checks None))).
Proof.
  intro H. simpl. rewrite H, string_check_fold. reflexivity.
Qed.

Lemma string_roundtrip_witness :
  rbind (zodToBsonSchema (ZString [SEmail; SMax 40; SUuid])) mongoSchemaToZod =
  Ok (ZString [SMax 40; SRegex emailPattern]).
Proof.
  apply (string_roundtrip [SEmail; SMax 40; SUuid]). reflexivity.
Defined.

Lemma mongoSchemaToZod_not_optional (m : mongo) (z : zod) :
  mongoSchemaToZod m = Ok z -> is_optional z = false.
Proof.
  intro H. destruct m. simpl in H. destruct_results H; reflexivity.
Qed.

Lemma mem_string_In (k : string) (l : list string) :
  mem_string k l = true <-> In k l.
Proof.
  unfold mem_string. rewrite existsb_exists. split.
  - intros [x [Hx E]]. apply String.eqb_eq in E. subst x. exact Hx.
  - intro Hk. exists k. split; [exact Hk | apply String.eqb_refl].
Qed.

Lemma nodup_fst_unique {B} (l : list (string * B)) (k : string) (v v' : B) :
  NoDup (map fst l) -> In (k, v) l -> In (k, v') l -> v = v'.
Proof.
  induction l as [| [k0 b] rest IH]; intros Hnd H1 H2; [destruct H1 |].
  simpl in Hnd. inversion Hnd as [| ? ? Hnotin Hnd']; subst.
  destruct H1 as [E1 | H1], H2 as [E2 | H2].
  - congruence.
  - injection E1 as -> ->. exfalso. apply Hnotin.
    apply in_map_iff. exists (k, v'). split; [reflexivity | exact H2].
  - injection E2 as -> ->. exfalso. apply Hnotin.
    apply in_map_iff. exists (k, v). split; [reflexivity | exact H1].
  - apply IH; assumption.
Qed.

Lemma Forall2_compose_in {A B C} (R1 : A -> B -> Prop) (R2 : B -> C -> Prop)
    (R3 : A -> C -> Prop) (l1 : list A) (l2 : list B) (l3 : list C) :
  (forall a b c, In a l1 -> R1 a b -> R2 b c -> R3 a c) ->
  Forall2 R1 l1 l2 -> Forall2 R2 l2 l3 -> Forall2 R3 l1 l3.
Proof.
  intros Hc H12. revert l3.
  induction H12 as [| a b l1' l2' Hab H12' IH]; intros l3 H23.
  - inversion H23. constructor.
  - inversion H23 as [| ? c ? l3' Hbc H23']; subst. constructor.
    + apply (Hc a b c); [left; reflexivity | assumption | assumption].
    + apply IH; [intros a' b' c' Ha'; apply Hc; right; exact Ha' | exact H23'].
Qed.

(** X12: when an object schema's keys are distinct, converting it and back
    gives a passthrough object with the same keys in the same order, each
    field optional exactly when it was a [ZodOptional]; the original
    strip / strict policy is not kept. *)
Theorem object_roundtrip_optionality (shape : list (string * zod))
    (uk : unknown_keys) (d : mongo) (z : zod) :
  NoDup (map fst shape) ->
  zodToBsonSchema (ZObject shape uk) = Ok d ->
  mongoSchemaToZod d = Ok z ->
  exists sh, z = ZObject sh UKPassthrough /\
    Forall2 (fun kv kz => fst kv = fst kz /\
                          is_optional (snd kz) = is_optional (snd kv)) shape sh.
Proof.
  intros Hnd Hd Hz. simpl in Hd.
  destruct (shape_entries_loop zodToBsonSchema shape) as [[props req] |] eqn:E;
    [| discriminate].
  pose proof (shape_entries_loop_props _ _ _ E) as HP.
  pose proof (shape_entries_loop_required _ _ _ E) as HR.
  simpl in HP, HR, Hd. injection Hd as <-.
  assert (Hrev : mongoSchemaToZod
                   (if Nat.ltb 0 (length req)
                    then set_required req (set_properties props (mk_bson "object"))
                    else set_properties props (mk_bson "object"))
                 = rbind (properties_loop mongoSchemaToZod req props)
                         (fun sh => Ok (ZObject sh UKPassthrough))).
  { destruct (Nat.ltb 0 (length req)) eqn:L; [reflexivity |].
    destruct req; [reflexivity | discriminate]. }
  rewrite Hrev in Hz. clear Hrev.
  destruct (properties_loop mongoSchemaToZod req props) as [sh |] eqn:E2;
    [| discriminate].
  simpl in Hz. injection Hz as <-. exists sh. split; [reflexivity |].
  apply properties_loop_fields in E2.
  refine (Forall2_compose_in _ _ _ _ _ _ _ HP E2).
  intros [k v] [k1 m] [k2 zfield] Hin [Hk1 Hconv] [Hk2 [zf [Hzf Hfield]]].
  simpl in *. subst k1 k2. split; [reflexivity |]. subst zfield.
  pose proof (mongoSchemaToZod_not_optional _ _ Hzf) as Hnopt.
  destruct (is_optional v) eqn:Ev.
  - destruct (mem_string k req) eqn:Em; [| reflexivity].
    exfalso. apply mem_string_In in Em. rewrite HR in Em.
    apply in_required_filter in Em. destruct Em as [v' [Hin' Hopt']].
    rewrite (nodup_fst_unique shape k v v' Hnd Hin Hin') in Ev. congruence.
  - replace (mem_string k req) with true; [exact Hnopt |].
    symmetry. apply mem_string_In. rewrite HR. apply in_required_filter.
    exists v. split; assumption.
Qed.

Lemma object_roundtrip_optionality_witness :
  exists sh,
    ZObject [("a", ZString []); ("b", ZOptional ZBoolean)] UKPassthrough
      = ZObject sh UKPassthrough /\
    Forall2 (fun kv kz => fst kv = fst kz /\
                          is_optional (snd kz) = is_optional (snd kv))
            [("a", ZString []); ("b", ZOptional ZBoolean)] sh.
Proof.
  eapply (object_roundtrip_optionality
            [("a", ZString []); ("b", ZOptional ZBoolean)] UKStrict).
  - repeat constructor; simpl; intuition discriminate.
  - reflexivity.
  - reflexivity.
Defined.



Lemma Forall2_forallb {A} (f : A -> result mongo) (q : mongo -> bool)
    (l : list A) (ys : list mongo) :
  Forall (fun x => forall d, f x = Ok d -> q d = true) l ->
  Forall2 (fun x y => f x = Ok y) l ys -> forallb q ys = true.
Proof.
  intros HF H2. induction H2 as [| x y l' ys' Hxy H2' IH]; [reflexivity |].
  inversion HF as [| ? ? Hx HF']; subst. simpl.
  rewrite (Hx y Hxy). apply IH. exact HF'.
Qed.

Lemma Forall2_forallb_props (conv : zod -> result mongo) (q : mongo -> bool)
    (l : list (string * zod)) (ps : list (string * mongo)) :
  Forall (fun kv => forall d, conv (snd kv) = Ok d -> q d = true) l ->
  Forall2 (fun kv km => fst kv = fst km /\ conv (snd kv) = Ok (snd km)) l ps ->
  forallb (fun '(_, v) => q v) ps = true.
Proof.
  intros HF H2. induction H2 as [| x [k m] l' ps' [_ Hxy] H2' IH]; [reflexivity |].
  inversion HF as [| ? ? Hx HF']; subst. simpl.
  rewrite (Hx m Hxy). apply IH. exact HF'.
Qed.

(** X14: every node of a descriptor produced by [zodToBsonSchema], at any
    depth, is either a single-kind node or a [oneOf] node, never both. *)
Theorem forward_nodes_single_or_alternatives (z : zod) :
  forall d, zodToBsonSchema z = Ok d -> mongo_all single_or_alternatives d = true.
Proof.
  induction z as [i IH | i IH | l HF | sh uk HF | v IH | e mn mx IH | sc ef IH
                 | | c | c | | | v | v | | n] using zod_deep_ind;
    intros d Hc; simpl in Hc.
  - apply IH. exact Hc.
  - destruct (zodToBsonSchema i) as [m |] eqn:E; [| discriminate].
    simpl in Hc. injection Hc as <-. simpl. rewrite (IH m eq_refl). reflexivity.
  - destruct (map_result zodToBsonSchema l) as [ms |] eqn:E; [| discriminate].
    simpl in Hc. injection Hc as <-. simpl.
    rewrite (Forall2_forallb _ _ _ _ HF (map_result_Forall2 _ _ _ E)). reflexivity.
  - destruct (shape_entries_loop zodToBsonSchema sh) as [[props req] |] eqn:E;
      [| discriminate].
    apply shape_entries_loop_props in E. simpl in E, Hc. injection Hc as <-.
    destruct (Nat.ltb 0 (length req)); simpl;
      rewrite (Forall2_forallb_props _ _ _ _ HF E); reflexivity.
  - destruct (zodToBsonSchema v) as [m |] eqn:E; [| discriminate].
    simpl in Hc. injection Hc as <-. simpl. rewrite (IH m eq_refl). reflexivity.
  - destruct (zodToBsonSchema e) as [m |] eqn:E; [| discriminate].
    simpl in Hc. injection Hc as <-.
    destruct mn, mx; simpl; rewrite (IH m eq_refl); reflexivity.
  - discriminate.
  - injection Hc as <-. reflexivity.
  - destruct (existsb is_objectId_check c); injection Hc as <-; [reflexivity |].
    rewrite string_check_fold. reflexivity.
  - injection Hc as <-.
    change numbers with (num_alts ["int"; "long"; "double"; "decimal"] None None).
    rewrite number_check_fold.
    destruct (existsb Legacy.is_int_check c); reflexivity.
  - injection Hc as <-. reflexivity.
  - injection Hc as <-. reflexivity.
  - injection Hc as <-. reflexivity.
  - injection Hc as <-. reflexivity.
  - injection Hc as <-. reflexivity.
  - discriminate.
Qed.

Lemma forward_nodes_single_or_alternatives_witness :
  exists d, zodToBsonSchema (ZObject [("n", ZNullable (ZNumber [NInt]))] UKStrip) = Ok d /\
            mongo_all single_or_alternatives d = true.
Proof.
  eexists. split; [reflexivity |].
  apply (forward_nodes_single_or_alternatives
           (ZObject [("n", ZNullable (ZNumber [NInt]))] UKStrip)).
  reflexivity.
Defined.

Lemma map_result_Err {A B} (f : A -> result B) (l : list A) (e : string) :
  map_result f l = Err e -> exists x, In x l /\ f x = Err e.
Proof.
  induction l as [| a r IH]; simpl; intro H; [discriminate |].
  destruct (f a) as [y | s] eqn:E; simpl in H.
  - destruct (map_result f r) as [ys | s] eqn:E2; simpl in H; [discriminate |].
    injection H as Hs; subst.
    destruct (IH eq_refl) as [x [Hi Hx]]. exists x. split; [right; exact Hi | exact Hx].
  - injection H as Hs; subst. exists a. split; [left; reflexivity | exact E].
Qed.


Lemma properties_loop_Err (conv : mongo -> result zod) (req : list string)
    (l : list (string * mongo)) (e : string) :
  properties_loop conv req l = Err e -> exists km, In km l /\ conv (snd km) = Err e.
Proof.
  induction l as [| [k v] r IH]; simpl; intro H; [discriminate |].
  destruct (conv v) as [zf | s] eqn:E; simpl in H.
  - destruct (properties_loop conv req r) as [sh | s] eqn:E2; simpl in H;
      [discriminate |].
    injection H as Hs; subst.
    destruct (IH eq_refl) as [x [Hi Hx]]. exists x. split; [right; exact Hi | exact Hx].
  - injection H as Hs; subst. exists (k, v). split; [left; reflexivity | exact E].
Qed.

Lemma Forall2_in_r {A B} (R : A -> B -> Prop) (l1 : list A) (l2 : list B) (y : B) :
  Forall2 R l1 l2 -> In y l2 -> exists x, In x l1 /\ R x y.
Proof.
  intros H2 Hy. induction H2 as [| a b l1' l2' Hab H2' IH]; [destruct Hy |].
  destruct Hy as [<- | Hy].
  - exists a. split; [left; reflexivity | exact Hab].
  - destruct (IH Hy) as [x [Hx Rx]]. exists x. split; [right; exact Hx | exact Rx].
Qed.



(** X16: converting a schema to a descriptor and back with
    [mongoSchemaToZod] fails only with one of three errors: the missing
    [bsonType] of a descriptor of [z.any()] or [z.undefined()], the [null]
    member of a nullable schema's [oneOf], or the missing [properties] of a
    record's descriptor. *)
Theorem forward_then_reverse_errors (z : zod) :
  forall d e, zodToBsonSchema z = Ok d -> mongoSchemaToZod d = Err e ->
  mem_string e ["Unsupported BSON type: undefined";
                "Unsupported BSON type: null";
                entries_undefined_error] = true.
Proof.
  induction z as [i IH | i IH | l HF | sh uk HF | v IH | el mn mx IH | sc ef IH
                 | | c | c | | | v | v | | n] using zod_deep_ind;
    intros d e Hf Hr; simpl in Hf.
  - exact (IH d e Hf Hr).
  - destruct (zodToBsonSchema i) as [m |] eqn:E; simpl in Hf; [| discriminate].
    injection Hf as <-. simpl in Hr. injection Hr as <-. reflexivity.
  - destruct (map_result zodToBsonSchema l) as [ms |] eqn:E; simpl in Hf;
      [| discriminate].
    injection Hf as <-. simpl in Hr.
    destruct (map_result mongoSchemaToZod ms) as [zs | s] eqn:E2; simpl in Hr;
      [discriminate |].
    injection Hr as Hs; subst.
    destruct (map_result_Err _ _ _ E2) as [y [Hy Hye]].
    destruct (Forall2_in_r _ _ _ _ (map_result_Forall2 _ _ _ E) Hy) as [x [Hx Hxy]].
    exact (proj1 (Forall_forall _ _) HF x Hx _ _ Hxy Hye).
  - destruct (shape_entries_loop zodToBsonSchema sh) as [[props req] |] eqn:E;
      simpl in Hf; [| discriminate].
    apply shape_entries_loop_props in E. simpl in E.
    injection Hf as <-.
    assert (Hr' : properties_loop mongoSchemaToZod
                    (if Nat.ltb 0 (length req) then req else []) props = Err e).
    { destruct (Nat.ltb 0 (length req)); simpl in Hr;
        destruct (properties_loop mongoSchemaToZod _ props) eqn:E2; simpl in Hr;
        try discriminate; congruence. }
    destruct (properties_loop_Err _ _ _ _ Hr') as [km [Hk Hke]].
    destruct (Forall2_in_r _ _ _ _ E Hk) as [kv [Hv [_ Hvk]]].
    exact (proj1 (Forall_forall _ _) HF kv Hv _ _ Hvk Hke).
  - destruct (zodToBsonSchema v) as [m |] eqn:E; simpl in Hf; [| discriminate].
    injection Hf as <-. simpl in Hr. injection Hr as <-. reflexivity.
  - destruct (zodToBsonSchema el) as [m |] eqn:E; simpl in Hf; [| discriminate].
    injection Hf as <-.
    assert (Hr' : mongoSchemaToZod m = Err e).
    { destruct mn, mx; simpl in Hr;
        destruct (mongoSchemaToZod m) eqn:E2; simpl in Hr;
        try discriminate; congruence. }
    exact (IH m e eq_refl Hr').
  - discriminate.
  - injection Hf as <-. simpl in Hr. injection Hr as <-. reflexivity.
  - destruct (existsb is_objectId_check c); injection Hf as <-.
    + simpl in Hr. discriminate.
    + rewrite string_check_fold in Hr. simpl in Hr. discriminate.
  - injection Hf as <-.
    change numbers with (num_alts ["int"; "long"; "double"; "decimal"] None None) in Hr.
    rewrite number_check_fold in Hr.
    destruct (existsb Legacy.is_int_check c); simpl in Hr; discriminate.
  - injection Hf as <-. discriminate.
  - injection Hf as <-. discriminate.
  - injection Hf as <-. discriminate.
  - injection Hf as <-. discriminate.
  - injection Hf as <-. simpl in Hr. injection Hr as <-. reflexivity.
  - discriminate.
Qed.

Lemma forward_then_reverse_errors_witness :
  zodToBsonSchema (ZArray (ZNullable ZBoolean) None None)
    = Ok (set_items (inl (mk_oneOf [mk_bson "null"; mk_bson "bool"])) (mk_bson "array")) /\
  mongoSchemaToZod
    (set_items (inl (mk_oneOf [mk_bson "null"; mk_bson "bool"])) (mk_bson "array"))
    = Err "Unsupported BSON type: null" /\
  mem_string "Unsupported BSON type: null"
    ["Unsupported BSON type: undefined"; "Unsupported BSON type: null";
     entries_undefined_error] = true.
Proof.
  split; [reflexivity |]. split; [reflexivity |].
  apply (forward_then_reverse_errors (ZArray (ZNullable ZBoolean) None None)
           (set_items (inl (mk_oneOf [mk_bson "null"; mk_bson "bool"])) (mk_bson "array")));
    reflexivity.
Defined.

Lemma legacy_number_check_fold (checks : list number_check) (s : mongo) :
  fold_left Legacy.number_check_step checks s =
  MkMongo (oneOf s) (bsonType s) (enum s) (properties s) (required s)
    (minProperties s) (maxProperties s) (additionalProperties s) (items s)
    (minItems s) (maxItems s) (uniqueItems s) (minLength s) (maxLength s)
    (pattern s)
    (nlast_from nmin_of checks (minimum s))
    (nlast_from nmax_of checks (maximum s))
    (nlast_from nmult_of checks (multipleOf s)).
Proof.
  unfold nlast_from. revert s.
  induction checks as [| c rest IH]; intro s.
  - destruct s; reflexivity.
  - simpl. rewrite IH. destruct c; reflexivity.
Qed.

(** X17: in the second variant, a number schema becomes one descriptor of
    kind [int] when an [int] check is present and [double] otherwise, with
    the last [min] as [minimum], the last [max] as [maximum] and the last
    [multipleOf] as [multipleOf], and no other key. *)
Theorem legacy_number_descriptor (checks : list number_check) :
  Legacy.zodToBson (ZNumber checks) =
  Ok (MkMongo None
        (Some (if existsb Legacy.is_int_check checks then "int" else "double"))
        None None None None None None None None None None None None None
        (nlast_from nmin_of checks None) (nlast_from nmax_of checks None)
        (nlast_from nmult_of checks None)).
Proof.
  simpl. rewrite legacy_number_check_fold.
  destruct (existsb Legacy.is_int_check checks); reflexivity.
Qed.

(** X18: in the second variant, a number schema converted to a descriptor
    and back is [z.number()] with [.int()] exactly when an [int] check was
    present, then the last [min], [max] and [multipleOf]: unlike the latest
    variant, [multipleOf] survives the round trip. *)
Theorem legacy_number_roundtrip (checks : list number_check) :
  rbind (Legacy.zodToBson (ZNumber checks)) Legacy.bsonToZod =
  Ok (ZNumber ((if existsb Legacy.is_int_check checks then [NInt] else [])
               ++ opt_check NMin (nlast_from nmin_of checks None)
               ++ opt_check NMax (nlast_from nmax_of checks None)
               ++ opt_check NMultipleOf (nlast_from nmult_of checks None))).
Proof.
  simpl. rewrite legacy_number_check_fold.
  destruct (existsb Legacy.is_int_check checks); reflexivity.
Qed.

(** X19: no descriptor produced by the second variant's converter has a
    [oneOf] at any depth, and every [bsonType] in it is one of [object],
    [array], [objectId], [string], [int], [double], [bool], [date]. *)
Theorem legacy_forward_kinds (z : zod) :
  forall d, Legacy.zodToBson z = Ok d -> mongo_all legacy_node_ok d = true.
Proof.
  induction z as [i IH | i IH | l HF | sh uk HF | v IH | el mn mx IH | sc ef IH
                 | | c | c | | | v | v | | n] using zod_deep_ind;
    intros d Hc; simpl in Hc.
  - apply IH. exact Hc.
  - apply IH. exact Hc.
  - discriminate.
  - destruct (shape_entries_loop Legacy.zodToBson sh) as [[props req] |] eqn:E;
      [| discriminate].
    apply shape_entries_loop_props in E. simpl in E, Hc. injection Hc as <-.
    destruct (Nat.ltb 0 (length req)); simpl;
      rewrite (Forall2_forallb_props _ _ _ _ HF E); reflexivity.
  - discriminate.
  - destruct (Legacy.zodToBson el) as [m |] eqn:E; [| discriminate].
    simpl in Hc. injection Hc as <-.
    destruct mn, mx; simpl; rewrite (IH m eq_refl); reflexivity.
  - discriminate.
  - discriminate.
  - destruct (existsb is_objectId_check c); injection Hc as <-; [reflexivity |].
    rewrite string_check_fold. reflexivity.
  - injection Hc as <-. rewrite legacy_number_check_fold.
    destruct (existsb Legacy.is_int_check c); reflexivity.
  - injection Hc as <-. reflexivity.
  - injection Hc as <-. reflexivity.
  - injection Hc as <-. reflexivity.
  - discriminate.
  - injection Hc as <-. reflexivity.
  - discriminate.
Qed.

Lemma legacy_forward_kinds_witness :
  exists d, Legacy.zodToBson
              (ZObject [("n", ZNullable (ZNumber [NInt; NMultipleOf 3%Z]));
                        ("xs", ZArray (ZString [SEmail]) (Some 1%Z) None)] UKStrip) = Ok d /\
            mongo_all legacy_node_ok d = true.
Proof.
  eexists. split; [reflexivity |].
  apply (legacy_forward_kinds
           (ZObject [("n", ZNullable (ZNumber [NInt; NMultipleOf 3%Z]));
                     ("xs", ZArray (ZString [SEmail]) (Some 1%Z) None)] UKStrip)).
  reflexivity.
Defined.

(** X20: the second variant's reverse converter rejects every descriptor
    without a [bsonType] with [Unsupported BSON type: undefined]; in
    particular it has no [oneOf] branch and rejects [{oneOf: [...]}] even when
    every member is supported. *)
Theorem legacy_reverse_requires_bsonType (m : mongo) :
  bsonType m = None -> Legacy.bsonToZod m = Err "Unsupported BSON type: undefined".
Proof.
  destruct m. simpl. intros ->. reflexivity.
Qed.

Lemma legacy_reverse_requires_bsonType_witness :
  mongoSchemaToZod (mk_oneOf [mk_bson "bool"; mk_bson "date"])
    = Ok (ZUnion [ZBoolean; ZDate]) /\
  Legacy.bsonToZod (mk_oneOf [mk_bson "bool"; mk_bson "date"])
    = Err "Unsupported BSON type: undefined".
Proof.
  split; [reflexivity |].
  apply legacy_reverse_requires_bsonType. reflexivity.
Defined.



(** X22: in the second variant, converting a schema to a descriptor and back
    fails only with [Unsupported BSON type: undefined], the error for the
    empty descriptor of [z.any()]. *)
Theorem legacy_forward_then_reverse_errors (z : zod) :
  forall d e, Legacy.zodToBson z = Ok d -> Legacy.bsonToZod d = Err e ->
  e = "Unsupported BSON type: undefined".
Proof.
  induction z as [i IH | i IH | l HF | sh uk HF | v IH | el mn mx IH | sc ef IH
                 | | c | c | | | v | v | | n] using zod_deep_ind;
    intros d e Hf Hr; simpl in Hf.
  - exact (IH d e Hf Hr).
  - exact (IH d e Hf Hr).
  - discriminate.
  - destruct (shape_entries_loop Legacy.zodToBson sh) as [[props req] |] eqn:E;
      simpl in Hf; [| discriminate].
    apply shape_entries_loop_props in E. simpl in E.
    injection Hf as <-.
    assert (Hr' : properties_loop Legacy.bsonToZod
                    (if Nat.ltb 0 (length req) then req else []) props = Err e).
    { destruct (Nat.ltb 0 (length req)); simpl in Hr;
        destruct (properties_loop Legacy.bsonToZod _ props) eqn:E2; simpl in Hr;
        try discriminate; congruence. }
    destruct (properties_loop_Err _ _ _ _ Hr') as [km [Hk Hke]].
    destruct (Forall2_in_r _ _ _ _ E Hk) as [kv [Hv [_ Hvk]]].
    exact (proj1 (Forall_forall _ _) HF kv Hv _ _ Hvk Hke).
  - discriminate.
  - destruct (Legacy.zodToBson el) as [m |] eqn:E; simpl in Hf; [| discriminate].
    injection Hf as <-.
    assert (Hr' : Legacy.bsonToZod m = Err e).
    { destruct mn, mx; simpl in Hr;
        destruct (Legacy.bsonToZod m) eqn:E2; simpl in Hr;
        try discriminate; congruence. }
    exact (IH m e eq_refl Hr').
  - discriminate.
  - discriminate.
  - destruct (existsb is_objectId_check c); injection Hf as <-.
    + simpl in Hr. discriminate.
    + rewrite string_check_fold in Hr. simpl in Hr. discriminate.
  - injection Hf as <-. rewrite legacy_number_check_fold in Hr.
    destruct (existsb Legacy.is_int_check c); simpl in Hr; discriminate.
  - injection Hf as <-. discriminate.
  - injection Hf as <-. discriminate.
  - injection Hf as <-. discriminate.
  - discriminate.
  - injection Hf as <-. simpl in Hr. injection Hr as <-. reflexivity.
  - discriminate.
Qed.

Lemma legacy_forward_then_reverse_errors_witness :
  Legacy.zodToBson (ZObject [("meta", ZAny)] UKStrip)
    = Ok (set_required ["meta"] (set_properties [("meta", mongo_empty)] (mk_bson "object"))) /\
  Legacy.bsonToZod
    (set_required ["meta"] (set_properties [("meta", mongo_empty)] (mk_bson "object")))
    = Err "Unsupported BSON type: undefined" /\
  "Unsupported BSON type: undefined" = "Unsupported BSON type: undefined".
Proof.
  split; [reflexivity |]. split; [reflexivity |].
  apply (legacy_forward_then_reverse_errors (ZObject [("meta", ZAny)] UKStrip)
           (set_required ["meta"] (set_properties [("meta", mongo_empty)] (mk_bson "object"))));
    reflexivity.
Defined.


